(** * Smart Waste Management System: the bin-fleet model of [app.py]

    A shallow embedding of the decision logic of [src/app.py]:
    - [generate_bin_data] (lines 67-105), threading the random source and
      the wall clock through a small state monad;
    - the status rule of line 83 and the marker colour of line 119;
    - [create_efficiency_metrics] (lines 178-199), raising Python's
      [ZeroDivisionError] where the source divides;
    - the alert lists built inside [main] (lines 289 and 301-304);
    - the route catalogue of [create_route_optimization_chart] (lines 203-208)
      and the recommendations of [main] (lines 380-386);
    - the refresh prologue of [main] (lines 236-250) on the session state.

    Numbers: Python [int]s are [Z]; timestamps are [Z] microseconds (naive
    [datetime]s); Python floats in the metrics are modelled by exact
    rationals [Q]. *)

From Stdlib Require Import ZArith QArith String Ascii List Bool Lia.
Import ListNotations.
Open Scope Z_scope.

(** ** The random source and the wall clock *)

(** The world the script runs in: the raw samples of [random], the position
    of the next sample, and the current time of [datetime.now()] in
    microseconds. *)
Record World := mkWorld {
  rng : nat -> Z;
  rpos : nat;
  clock : Z
}.

(** A state monad over the world. *)
Definition M (A : Type) : Type := World -> A * World.

Definition ret {A} (a : A) : M A := fun w => (a, w).

Definition bind {A B} (m : M A) (k : A -> M B) : M B :=
  fun w => let (a, w') := m w in k a w'.

Notation "x <- m ;; k" := (bind m (fun x => k))
  (at level 61, m at next level, right associativity).

(** [random.randint(a, b)]: one sample, reduced into [a..b]. *)
Definition randint (a b : Z) : M Z :=
  fun w => (a + rng w (rpos w) mod (b - a + 1),
            mkWorld (rng w) (S (rpos w)) (clock w)).

(** [datetime.now()]. *)
Definition datetime_now : M Z := fun w => (clock w, w).

(** [time.sleep(secs)]: the clock moves on by [secs] seconds. *)
Definition time_sleep (secs : Z) : M unit :=
  fun w => (tt, mkWorld (rng w) (rpos w) (clock w + secs * 1000000)).

(** [timedelta(hours=h)] in microseconds. *)
Definition timedelta_hours (h : Z) : Z := h * 3600 * 1000000.

(** The [.seconds] attribute of a [timedelta] of [d] microseconds: Python
    normalises a timedelta to [days], [seconds] in [0..86399] and
    [microseconds] in [0..999999], with floor division. *)
Definition timedelta_seconds (d : Z) : Z := (d mod 86400000000) / 1000000.

(** ** Data model *)

Inductive Status := Good | Warning | Critical.

Definition Status_eqb (s t : Status) : bool :=
  match s, t with
  | Good, Good | Warning, Warning | Critical, Critical => true
  | _, _ => false
  end.

(** One entry of [bin_locations]. *)
Record Location := mkLocation {
  loc_id : string;
  loc_lat : Q;
  loc_lon : Q;
  loc_area : string
}.

(** The dictionary appended to [bins] (lines 94-103): the location's keys
    followed by the generated readings. *)
Record BinReading := mkBinReading {
  id : string;
  lat : Q;
  lon : Q;
  area : string;
  fill_level : Z;
  status : Status;
  last_collection : Z;
  daily_waste : Z;
  waste_classification : list (string * Z);
  temperature : Z;
  humidity : Z
}.

(** Lines 69-78. *)
Definition bin_locations : list Location := [
  mkLocation "BIN001" 28.6139 77.2090 "Connaught Place";
  mkLocation "BIN002" 28.6562 77.2410 "Red Fort";
  mkLocation "BIN003" 28.5535 77.2588 "Lotus Temple";
  mkLocation "BIN004" 28.6129 77.2295 "India Gate";
  mkLocation "BIN005" 28.6448 77.2167 "Chandni Chowk";
  mkLocation "BIN006" 28.5244 77.1855 "Qutub Minar";
  mkLocation "BIN007" 28.6692 77.4538 "Akshardham";
  mkLocation "BIN008" 28.6304 77.2177 "Rajpath"
].

(** ** Status classifier *)

(** Line 83:
    [status = "Critical" if fill_level > 85 else "Warning" if fill_level > 70 else "Good"]. *)
Definition classify (fill_level : Z) : Status :=
  if fill_level >? 85 then Critical
  else if fill_level >? 70 then Warning
  else Good.

(** ** Generator *)

(** The body of the loop of [generate_bin_data] for one location
    (lines 82-103), drawing its samples in the order Python evaluates them. *)
Definition generate_reading (location : Location) : M BinReading :=
  fill_level <- randint 10 95 ;;
  let status := classify fill_level in
  plastic <- randint 20 40 ;;
  paper <- randint 15 30 ;;
  glass <- randint 5 20 ;;
  metal <- randint 5 15 ;;
  organic <- randint 25 45 ;;
  let waste_types := [("Plastic", plastic); ("Paper", paper); ("Glass", glass);
                      ("Metal", metal); ("Organic", organic)]%string in
  now <- datetime_now ;;
  hours <- randint 2 48 ;;
  daily_waste <- randint 50 200 ;;
  temperature <- randint 20 35 ;;
  humidity <- randint 40 80 ;;
  ret (mkBinReading (loc_id location) (loc_lat location) (loc_lon location)
         (loc_area location) fill_level status (now - timedelta_hours hours)
         daily_waste waste_types temperature humidity).

(** [for location in ...: bins.append(...)]. *)
Fixpoint generate_readings (locations : list Location) : M (list BinReading) :=
  match locations with
  | [] => ret []
  | location :: rest =>
      b <- generate_reading location ;;
      bins <- generate_readings rest ;;
      ret (b :: bins)
  end.

(** [generate_bin_data()]. *)
Definition generate_bin_data : M (list BinReading) :=
  generate_readings bin_locations.

(** The location keys of a reading ([**location] in line 95). *)
Definition location_of (b : BinReading) : Location :=
  mkLocation (id b) (lat b) (lon b) (area b).

(** ** Map marker colour *)

Inductive Color := red | orange | green.

(** Line 119:
    [color = 'red' if fill_level > 85 else 'orange' if fill_level > 70 else 'green']. *)
Definition marker_color (bin_info : BinReading) : Color :=
  if fill_level bin_info >? 85 then red
  else if fill_level bin_info >? 70 then orange
  else green.

(** ** Metrics aggregator *)

(** The exceptions of the model: Python's [ZeroDivisionError], raised by
    [/] on a zero divisor, and the dedicated error the spec asks for, which
    no line of the source raises. *)
Inductive PyExc := ZeroDivisionError | EmptyFleetError.

Inductive Result (A : Type) := Ok (a : A) | Err (e : PyExc).
Arguments Ok {A} a.
Arguments Err {A} e.

Record Metrics := mkMetrics {
  total_bins : Z;
  critical_bins : Z;
  warning_bins : Z;
  good_bins : Z;
  avg_fill_level : option Q;   (** [None] is NumPy's [nan] *)
  total_daily_waste : Z;
  collection_efficiency : Q
}.

(** [sum(1 for bin_info in bin_data if bin_info['status'] == s)]. *)
Definition count_status (s : Status) (bin_data : list BinReading) : Z :=
  fold_right (fun b acc => (if Status_eqb (status b) s then 1 else 0) + acc)
    0 bin_data.

(** [sum(xs)] over Python ints. *)
Definition sum_Z (xs : list Z) : Z := fold_right Z.add 0 xs.

(** [np.mean(xs)]: [nan] (with a warning, no exception) on an empty list. *)
Definition np_mean (xs : list Z) : option Q :=
  match xs with
  | [] => None
  | _ => Some (inject_Z (sum_Z xs) / inject_Z (Z.of_nat (length xs)))%Q
  end.

(** Python's [x / t] with an [int] divisor. *)
Definition py_div (x : Q) (t : Z) : Result Q :=
  if t =? 0 then Err ZeroDivisionError else Ok (x / inject_Z t)%Q.

(** Lines 178-199. *)
Definition create_efficiency_metrics (bin_data : list BinReading) : Result Metrics :=
  let total_bins := Z.of_nat (length bin_data) in
  let critical_bins := count_status Critical bin_data in
  let warning_bins := count_status Warning bin_data in
  let good_bins := total_bins - critical_bins - warning_bins in
  let avg_fill_level := np_mean (map fill_level bin_data) in
  let total_daily_waste := sum_Z (map daily_waste bin_data) in
  match py_div (inject_Z good_bins + inject_Z warning_bins * 0.7)%Q total_bins with
  | Err e => Err e
  | Ok r =>
      Ok (mkMetrics total_bins critical_bins warning_bins good_bins
            avg_fill_level total_daily_waste (r * 100)%Q)
  end.

(** ** Alert generator *)

(** Lines 289 and 301-304: the critical bins listed in full, the warning
    bins [warning_bins[:3]]. *)
Definition alert_lists (bin_data : list BinReading)
  : list BinReading * list BinReading :=
  let critical_bins := filter (fun b => Status_eqb (status b) Critical) bin_data in
  let warning_bins := filter (fun b => Status_eqb (status b) Warning) bin_data in
  (critical_bins, firstn 3 warning_bins).

(** ** Route catalogue *)

Record Route := mkRoute {
  Route_name : string;
  Bins : Z;
  Distance : Q;
  Time : Q;
  Efficiency : Z
}.

(** Lines 203-208. *)
Definition routes : list Route := [
  mkRoute "Route A" 8 25.5 3.2 85;
  mkRoute "Route B" 6 18.3 2.8 92;
  mkRoute "Route C" 10 32.1 4.1 78;
  mkRoute "Route D" 7 21.7 3.0 88
].

(** Lines 380-386, the leading emoji of each message left out. *)
Definition recommendations : list string := [
  "Route B shows highest efficiency (92%) - consider as template for other routes";
  "Route C has lowest efficiency (78%) - recommend redistribution of bins";
  "Optimal collection time: 6:00 AM - 10:00 AM (lowest traffic)";
  "Priority collection areas: Connaught Place, Red Fort, India Gate";
  "Estimated fuel savings: 15-20% with optimized routes"
]%string.

(** The spec's [best_route()] and [worst_route()]: maximum, resp. minimum,
    by efficiency, the first occurrence in catalogue order winning a tie.
    The source has no such function; it states the answers in
    [recommendations]. *)
Fixpoint first_max (best : Route) (rest : list Route) : Route :=
  match rest with
  | [] => best
  | r :: rs => first_max (if Efficiency best <? Efficiency r then r else best) rs
  end.

Fixpoint first_min (worst : Route) (rest : list Route) : Route :=
  match rest with
  | [] => worst
  | r :: rs => first_min (if Efficiency r <? Efficiency worst then r else worst) rs
  end.

Definition best_route_spec (catalog : list Route) : option Route :=
  match catalog with [] => None | r :: rs => Some (first_max r rs) end.

Definition worst_route_spec (catalog : list Route) : option Route :=
  match catalog with [] => None | r :: rs => Some (first_min r rs) end.

(** ** Session state and refresh *)

(** [st.session_state]: the timestamp of the last refresh and the snapshot. *)
Record Session := mkSession {
  last_update : Z;
  bin_data : list BinReading
}.

(** Lines 108-110. *)
Definition init_session : M Session :=
  now <- datetime_now ;;
  data <- generate_bin_data ;;
  ret (mkSession now data).

(** Lines 242-243 and 248-249: a new snapshot, then a new timestamp. *)
Definition refresh : M Session :=
  data <- generate_bin_data ;;
  now <- datetime_now ;;
  ret (mkSession now data).

(** Lines 236-250: the refresh prologue of a render pass, given the
    "Auto Refresh" checkbox and whether the "Refresh Data" button was
    pressed. The boolean is [true] when [st.rerun()] ends the pass. *)
Definition refresh_prologue (auto_refresh button : bool) (s : Session)
  : M (Session * bool) :=
  let manual (s : Session) : M (Session * bool) :=
    if button then (s' <- refresh ;; ret (s', true)) else ret (s, false) in
  if auto_refresh then
    _ <- time_sleep 1 ;;
    now <- datetime_now ;;
    if timedelta_seconds (now - last_update s) >? 30
    then (s' <- refresh ;; ret (s', true))
    else manual s
  else manual s.

(** ** Waste classification totals *)

(** Python's [KeyError] on a dictionary lookup. *)
Inductive DictError := KeyError (key : string).

(** [total_waste] as initialised at line 144. *)
Definition total_waste_init : list (string * Z) :=
  [("Plastic", 0); ("Paper", 0); ("Glass", 0); ("Metal", 0); ("Organic", 0)]%string.

(** [d[k] += v] on a dictionary of ints (keys kept in insertion order):
    a [KeyError] when [k] is not a key. *)
Fixpoint dict_add (d : list (string * Z)) (k : string) (v : Z)
  : list (string * Z) + DictError :=
  match d with
  | [] => inr (KeyError k)
  | (k', x) :: rest =>
      if String.eqb k k' then inl ((k', x + v) :: rest)
      else match dict_add rest k v with
           | inl rest' => inl ((k', x) :: rest')
           | inr e => inr e
           end
  end.

(** Lines 147-148 for one bin: [for waste_type, amount in ....items()]. *)
Definition add_classification (acc : list (string * Z) + DictError)
  (classification : list (string * Z)) : list (string * Z) + DictError :=
  fold_left (fun acc kv =>
               match acc with
               | inl d => dict_add d (fst kv) (snd kv)
               | inr e => inr e
               end) classification acc.

(** The [total_waste] dictionary that [create_waste_classification_chart]
    (lines 142-157) passes to the pie chart, or the [KeyError] its loop
    raises. *)
Definition waste_totals (bin_data : list BinReading) : list (string * Z) + DictError :=
  fold_left (fun acc bin_info => add_classification acc (waste_classification bin_info))
    bin_data (inl total_waste_init).

(** ** City map markers *)

(** The data of one [folium.CircleMarker] of [create_city_map]
    (lines 130-138); the popup text is left out. *)
Record Marker := mkMarker {
  marker_lat : Q;
  marker_lon : Q;
  radius : Q;
  marker_fill : Color
}.

(** Lines 117-138: one marker per bin, [radius=10 + (fill_level / 10)]
    with Python's true division. *)
Definition create_city_map (bin_data : list BinReading) : list Marker :=
  map (fun bin_info =>
         mkMarker (lat bin_info) (lon bin_info)
           (inject_Z 10 + inject_Z (fill_level bin_info) / inject_Z 10)%Q
           (marker_color bin_info))
    bin_data.

(** ** Recent classifications table (lines 417-424) *)

Definition digit_char (d : Z) : ascii := ascii_of_nat (48 + Z.to_nat d).

(** The decimal digits of [n >= 0], with [fuel] bounding their number. *)
Fixpoint decimal_digits (fuel : nat) (n : Z) : string :=
  match fuel with
  | O => EmptyString
  | S f =>
      if n <? 10 then String (digit_char n) EmptyString
      else decimal_digits f (n / 10) ++ String (digit_char (n mod 10)) EmptyString
  end.

Fixpoint zeros (k : nat) : string :=
  match k with O => EmptyString | S k' => String "0"%char (zeros k') end.

(** Python's [f"{n:03d}"]: the sign, then zeros padding the whole to width
    3, then the digits of [|n|]. *)
Definition format_03d (n : Z) : string :=
  let digits := decimal_digits (S (Z.to_nat (Z.log2 (Z.abs n)))) (Z.abs n) in
  let sign := if n <? 0 then "-"%string else EmptyString in
  (sign ++ zeros (3 - String.length sign - String.length digits) ++ digits)%string.

(** [k] successive runs of [m], in order. *)
Fixpoint repeatM {A} (k : nat) (m : M A) : M (list A) :=
  match k with
  | O => ret []
  | S k' => x <- m ;; xs <- repeatM k' m ;; ret (x :: xs)
  end.

(** One pick of [random.choices] without weights: an index drawn uniformly
    from the population by one sample. *)
Definition random_choice (population : list string) : M string :=
  fun w => (nth (Z.to_nat (rng w (rpos w) mod Z.of_nat (length population)))
              population EmptyString,
            mkWorld (rng w) (S (rpos w)) (clock w)).

Record ClassificationRow := mkClassificationRow {
  row_timestamp : Z;
  row_bin_id : string;
  row_item : string;
  row_confidence : Z
}.

(** One row of the DataFrame from its four column entries. *)
Definition classification_row (x : Z * (string * (string * Z))) : ClassificationRow :=
  let '(t, (b, (i, c))) := x in mkClassificationRow t b i c.

(** The [recent_classifications] DataFrame of lines 417-424, columns
    evaluated in order: [pd.date_range(start=now-2h, periods=10,
    freq='12min')], the ten [f"BIN{random.randint(1,8):03d}"], the ten
    [random.choices(...)] and the ten [random.randint(85, 99)]. *)
Definition recent_classifications : M (list ClassificationRow) :=
  now <- datetime_now ;;
  let timestamps :=
    map (fun i => now - timedelta_hours 2 + Z.of_nat i * 12 * 60 * 1000000) (seq 0 10) in
  bin_ids <- repeatM 10 (n <- randint 1 8 ;; ret ("BIN" ++ format_03d n)%string) ;;
  items <- repeatM 10 (random_choice
             ["Plastic Bottle"; "Paper Cup"; "Glass Jar"; "Metal Can"; "Food Waste"]%string) ;;
  confidences <- repeatM 10 (randint 85 99) ;;
  ret (map (fun '(t, (b, (i, c))) => mkClassificationRow t b i c)
         (combine timestamps (combine bin_ids (combine items confidences)))).

(** ** Ranges of a generated reading *)

(** The ranges the [random.randint] calls of lines 82-102 draw from, for a
    reading generated at time [now]. *)
Definition reading_in_ranges (now : Z) (b : BinReading) : Prop :=
  10 <= fill_level b <= 95 /\
  50 <= daily_waste b <= 200 /\
  20 <= temperature b <= 35 /\
  40 <= humidity b <= 80 /\
  now - timedelta_hours 48 <= last_collection b <= now - timedelta_hours 2 /\
  map fst (waste_classification b) = ["Plastic"; "Paper"; "Glass"; "Metal"; "Organic"]%string /\
  Forall2 (fun kv range => fst range <= snd kv <= snd range)
    (waste_classification b) [(20, 40); (15, 30); (5, 20); (5, 15); (25, 45)].

(** The amount stored under the [i]-th key of a reading's waste
    classification. *)
Definition amount_at (i : nat) (b : BinReading) : Z :=
  snd (nth i (waste_classification b) (EmptyString, 0)).

(** The five waste types, in the order of lines 87-91 and 144. *)
Definition waste_type_names : list string :=
  ["Plastic"; "Paper"; "Glass"; "Metal"; "Organic"]%string.

(** ** A concrete snapshot *)

(** A reading of bin [l] with the given fill level and its derived status,
    the other fields fixed. *)
Definition reading_at (l : Location) (f : Z) : BinReading :=
  mkBinReading (loc_id l) (loc_lat l) (loc_lon l) (loc_area l) f (classify f)
    0 100 [] 25 50.

(** The fleet of the spec's scenario: fill levels 90, 86, 70, 71, 50, 10,
    85, 95 on BIN001..BIN008. *)
Definition scenario_snapshot : list BinReading :=
  map (fun lf => reading_at (fst lf) (snd lf))
    (combine bin_locations [90; 86; 70; 71; 50; 10; 85; 95]).

(** A world whose random samples are all 0, at time [t] microseconds, with
    [n] samples already drawn. *)
Definition zero_world (n : nat) (t : Z) : World := mkWorld (fun _ => 0) n t.

(** ** Properties of the status comparison *)

Lemma Status_eqb_eq (s t : Status) : Status_eqb s t = true <-> s = t.
Proof. destruct s, t; simpl; split; congruence. Qed.

(** ** Properties of the generator *)

Lemma generate_reading_shape (location : Location) (w : World) :
  location_of (fst (generate_reading location w)) = location /\
  status (fst (generate_reading location w))
    = classify (fill_level (fst (generate_reading location w))).
Proof. destruct location; split; reflexivity. Qed.

Lemma generate_readings_cons (l : Location) (ls : list Location) (w : World) :
  generate_readings (l :: ls) w =
  let (b, w1) := generate_reading l w in
  let (bs, w2) := generate_readings ls w1 in
  (b :: bs, w2).
Proof.
  cbn [generate_readings]. unfold bind at 1.
  destruct (generate_reading l w) as [b w1].
  unfold bind, ret. destruct (generate_readings ls w1); reflexivity.
Qed.

Lemma generate_readings_shape (locations : list Location) (w : World) :
  map location_of (fst (generate_readings locations w)) = locations /\
  Forall (fun b => status b = classify (fill_level b))
    (fst (generate_readings locations w)).
Proof.
  revert w; induction locations as [|l ls IH]; intros w.
  - split; [reflexivity | constructor].
  - rewrite generate_readings_cons.
    pose proof (generate_reading_shape l w) as [H1 H2].
    destruct (generate_reading l w) as [b w1].
    destruct (IH w1) as [H3 H4].
    destruct (generate_readings ls w1) as [bs w2].
    simpl in H1, H2, H3, H4 |- *. split.
    + rewrite H1, H3. reflexivity.
    + constructor; assumption.
Qed.

Lemma generate_bin_data_locations (w : World) :
  map location_of (fst (generate_bin_data w)) = bin_locations.
Proof. apply generate_readings_shape. Qed.

Lemma refresh_bin_data (w : World) :
  bin_data (fst (refresh w)) = fst (generate_bin_data w).
Proof.
  unfold refresh, bind, ret, datetime_now.
  destruct (generate_bin_data w); reflexivity.
Qed.

Lemma init_session_bin_data (w : World) :
  bin_data (fst (init_session w)) = fst (generate_bin_data w).
Proof.
  unfold init_session, bind, ret, datetime_now. cbv beta iota.
  destruct (generate_bin_data w); reflexivity.
Qed.

(** The prologue either keeps the session or replaces it by [refresh]. *)
Lemma refresh_prologue_cases (auto_refresh button : bool) (s : Session) (w : World) :
  fst (fst (refresh_prologue auto_refresh button s w)) = s \/
  exists w', fst (fst (refresh_prologue auto_refresh button s w)) = fst (refresh w').
Proof.
  unfold refresh_prologue.
  destruct auto_refresh, button; unfold bind, ret, time_sleep, datetime_now;
    cbv beta iota zeta;
    try (match goal with |- context [if ?c then _ else _] => destruct c end);
    cbv beta iota zeta;
    first
      [ match goal with |- context [refresh ?w0] =>
          right; exists w0; destruct (refresh w0); reflexivity end
      | left; reflexivity ].
Qed.

Lemma randint_bound (a b r : Z) : a <= b -> a <= a + r mod (b - a + 1) <= b.
Proof. intros H. pose proof (Z.mod_pos_bound r (b - a + 1)). lia. Qed.

Lemma generate_reading_ranges (location : Location) (w : World) :
  reading_in_ranges (clock w) (fst (generate_reading location w)) /\
  clock (snd (generate_reading location w)) = clock w.
Proof.
  unfold generate_reading, bind, ret, randint, datetime_now.
  cbn [fst snd rng rpos clock].
  unfold reading_in_ranges.
  cbn [fill_level daily_waste temperature humidity last_collection waste_classification].
  repeat match goal with
    |- context [?a + ?r mod (?b - ?a + 1)] =>
      let H := fresh "H" in
      pose proof (randint_bound a b r ltac:(lia)) as H;
      set (a + r mod (b - a + 1)) in *
  end.
  unfold timedelta_hours.
  split; [|reflexivity].
  split; [lia|]. split; [lia|]. split; [lia|]. split; [lia|]. split; [lia|].
  split; [reflexivity|].
  repeat constructor; cbn [fst snd]; lia.
Qed.

Lemma generate_readings_ranges (locations : list Location) (w : World) :
  Forall (reading_in_ranges (clock w)) (fst (generate_readings locations w)) /\
  clock (snd (generate_readings locations w)) = clock w.
Proof.
  revert w; induction locations as [|l ls IH]; intros w.
  - split; [constructor | reflexivity].
  - rewrite generate_readings_cons.
    pose proof (generate_reading_ranges l w) as [H1 H2].
    destruct (generate_reading l w) as [b w1].
    destruct (IH w1) as [H3 H4].
    destruct (generate_readings ls w1) as [bs w2].
    simpl in H1, H2, H3, H4 |- *. rewrite H2 in H3, H4.
    split; [constructor; assumption | exact H4].
Qed.

(** ** Properties of the waste totals *)

Lemma add_classification_err (e : DictError) (classification : list (string * Z)) :
  add_classification (inr e) classification = inr e.
Proof. induction classification as [|kv r IH]; [reflexivity | exact IH]. Qed.

Lemma waste_fold_err (e : DictError) (bin_data : list BinReading) :
  fold_left (fun acc bin_info => add_classification acc (waste_classification bin_info))
    bin_data (inr e) = inr e.
Proof.
  induction bin_data as [|b bs IH]; [reflexivity|].
  simpl. rewrite add_classification_err. exact IH.
Qed.

Lemma dict_add_keys (d : list (string * Z)) (k : string) (v : Z) d' :
  dict_add d k v = inl d' -> map fst d' = map fst d.
Proof.
  revert d'; induction d as [|[k' x] rest IH]; intros d' H; [discriminate|].
  simpl in H. destruct (String.eqb k k').
  - injection H as <-. reflexivity.
  - destruct (dict_add rest k v) as [rest'|e] eqn:E; [|discriminate].
    injection H as <-. simpl. f_equal. apply IH. reflexivity.
Qed.

Lemma dict_add_missing (d : list (string * Z)) (k : string) (v : Z) :
  ~ In k (map fst d) -> dict_add d k v = inr (KeyError k).
Proof.
  induction d as [|[k' x] rest IH]; intros H; [reflexivity|].
  simpl in H |- *. destruct (String.eqb_spec k k') as [->|Hne].
  - exfalso. apply H. left. reflexivity.
  - rewrite IH; [reflexivity|]. intros Hin. apply H. right. exact Hin.
Qed.

Lemma add_classification_keys (d : list (string * Z)) classification d' :
  add_classification (inl d) classification = inl d' -> map fst d' = map fst d.
Proof.
  revert d; induction classification as [|[k v] r IH]; intros d H.
  - injection H as <-. reflexivity.
  - unfold add_classification in H. simpl in H.
    destruct (dict_add d k v) as [d1|e] eqn:E.
    + rewrite (IH d1 H). apply (dict_add_keys d k v d1 E).
    + fold (add_classification (inr e) r) in H.
      rewrite add_classification_err in H. discriminate.
Qed.

Lemma add_classification_unknown (d : list (string * Z)) classification k :
  In k (map fst classification) -> ~ In k (map fst d) ->
  exists e, add_classification (inl d) classification = inr e.
Proof.
  revert d; induction classification as [|[k0 v] r IH]; intros d Hk Hd;
    [destruct Hk|].
  unfold add_classification. simpl.
  destruct (dict_add d k0 v) as [d1|e] eqn:E.
  - fold (add_classification (inl d1) r). apply IH.
    + destruct Hk as [Hk|Hk]; [|exact Hk].
      simpl in Hk; subst k0. exfalso. apply Hd.
      destruct (in_dec string_dec k (map fst d)) as [Hin|Hin]; [exact Hin|].
      rewrite (dict_add_missing d k v Hin) in E. discriminate.
    + rewrite (dict_add_keys d k0 v d1 E). exact Hd.
  - fold (add_classification (inr e) r). rewrite add_classification_err.
    exists e. reflexivity.
Qed.

Lemma sum_Z_cons (x : Z) (xs : list Z) : sum_Z (x :: xs) = x + sum_Z xs.
Proof. reflexivity. Qed.

Lemma waste_fold_sums (bin_data : list BinReading) (p q g m o : Z) :
  Forall (fun b => map fst (waste_classification b) = waste_type_names) bin_data ->
  fold_left (fun acc bin_info => add_classification acc (waste_classification bin_info))
    bin_data
    (inl [("Plastic", p); ("Paper", q); ("Glass", g); ("Metal", m); ("Organic", o)]%string)
  = inl [("Plastic", p + sum_Z (map (amount_at 0) bin_data));
         ("Paper", q + sum_Z (map (amount_at 1) bin_data));
         ("Glass", g + sum_Z (map (amount_at 2) bin_data));
         ("Metal", m + sum_Z (map (amount_at 3) bin_data));
         ("Organic", o + sum_Z (map (amount_at 4) bin_data))]%string.
Proof.
  revert p q g m o; induction bin_data as [|b bs IH]; intros p q g m o Hall.
  - simpl. rewrite !Z.add_0_r. reflexivity.
  - inversion Hall as [|b' bs' Hb Hbs]; subst.
    cbn [fold_left map]. rewrite !sum_Z_cons.
    destruct b as [i la lo ar fl st lc dw wc te hu]; cbn [waste_classification] in *.
    destruct wc as [|[k0 a] [|[k1 b1] [|[k2 c] [|[k3 d] [|[k4 e] [|x wc]]]]]];
      try discriminate Hb.
    injection Hb as -> -> -> -> ->.
    cbn [waste_classification].
    replace (add_classification _ [("Plastic", a); ("Paper", b1); ("Glass", c);
                                   ("Metal", d); ("Organic", e)]%string) with
      (inl (B := DictError)
         [("Plastic", p + a); ("Paper", q + b1); ("Glass", g + c);
          ("Metal", m + d); ("Organic", o + e)]%string) by reflexivity.
    rewrite (IH _ _ _ _ _ Hbs).
    unfold amount_at. cbn [waste_classification nth snd].
    rewrite !Z.add_assoc. reflexivity.
Qed.

Lemma sum_Z_bounds {A} (f : A -> Z) (lo hi : Z) (xs : list A) :
  Forall (fun x => lo <= f x <= hi) xs ->
  Z.of_nat (length xs) * lo <= sum_Z (map f xs) <= Z.of_nat (length xs) * hi.
Proof.
  induction xs as [|x xs IH]; intros H; [simpl; lia|].
  inversion H as [|x' xs' Hx Hxs]; subst.
  cbn [map]. rewrite sum_Z_cons, length_cons, Nat2Z.inj_succ.
  specialize (IH Hxs). lia.
Qed.

Lemma reading_amounts (now : Z) (b : BinReading) :
  reading_in_ranges now b ->
  map fst (waste_classification b) = waste_type_names /\
  20 <= amount_at 0 b <= 40 /\ 15 <= amount_at 1 b <= 30 /\
  5 <= amount_at 2 b <= 20 /\ 5 <= amount_at 3 b <= 15 /\
  25 <= amount_at 4 b <= 45.
Proof.
  intros (_ & _ & _ & _ & _ & Hk & Hr).
  split; [exact Hk|]. unfold amount_at.
  destruct (waste_classification b) as [|kv0 [|kv1 [|kv2 [|kv3 [|kv4 [|x r]]]]]];
    try discriminate Hk.
  inversion Hr as [|? ? ? ? H0 Hr1]; subst.
  inversion Hr1 as [|? ? ? ? H1 Hr2]; subst.
  inversion Hr2 as [|? ? ? ? H2 Hr3]; subst.
  inversion Hr3 as [|? ? ? ? H3 Hr4]; subst.
  inversion Hr4 as [|? ? ? ? H4 Hr5]; subst.
  cbn [nth fst snd] in *. lia.
Qed.

Lemma generate_bin_data_length (w : World) : length (fst (generate_bin_data w)) = 8%nat.
Proof.
  rewrite <- (length_map location_of), generate_bin_data_locations. reflexivity.
Qed.

Lemma waste_fold_unknown (bin_data : list BinReading) (d : list (string * Z)) b k :
  map fst d = waste_type_names ->
  In b bin_data -> In k (map fst (waste_classification b)) -> ~ In k waste_type_names ->
  exists e, fold_left (fun acc bin_info => add_classification acc (waste_classification bin_info))
              bin_data (inl d) = inr e.
Proof.
  revert d; induction bin_data as [|b' bs IH]; intros d Hd Hb Hk Hn; [destruct Hb|].
  cbn [fold_left].
  destruct (add_classification (inl d) (waste_classification b')) as [d1|e] eqn:E.
  - destruct Hb as [Heq|Hb].
    + subst b'.
      destruct (add_classification_unknown d (waste_classification b) k Hk)
        as [e He]; [rewrite Hd; exact Hn|]. congruence.
    + apply (IH d1); [|exact Hb|exact Hk|exact Hn].
      rewrite (add_classification_keys d _ d1 E). exact Hd.
  - exists e. apply waste_fold_err.
Qed.

(** ** Properties of the counts and of the aggregator *)

Lemma count_status_cons (s : Status) (b : BinReading) (bs : list BinReading) :
  count_status s (b :: bs) =
  (if Status_eqb (status b) s then 1 else 0) + count_status s bs.
Proof. reflexivity. Qed.

Lemma count_status_bounds (s : Status) (bin_data : list BinReading) :
  0 <= count_status s bin_data <= Z.of_nat (length bin_data).
Proof.
  induction bin_data as [|b bs IH]; [simpl; lia|].
  rewrite count_status_cons, length_cons, Nat2Z.inj_succ.
  destruct (Status_eqb (status b) s); lia.
Qed.

Lemma count_status_sum (bin_data : list BinReading) :
  count_status Good bin_data + count_status Warning bin_data
  + count_status Critical bin_data = Z.of_nat (length bin_data).
Proof.
  induction bin_data as [|b bs IH]; [reflexivity|].
  rewrite !count_status_cons, length_cons, Nat2Z.inj_succ.
  destruct (status b); cbn [Status_eqb]; lia.
Qed.

Lemma count_status_all (s : Status) (bin_data : list BinReading) :
  Forall (fun b => status b = s) bin_data <->
  count_status s bin_data = Z.of_nat (length bin_data).
Proof.
  induction bin_data as [|b bs IH]; [split; [reflexivity | constructor]|].
  rewrite count_status_cons, length_cons, Nat2Z.inj_succ, Forall_cons_iff.
  pose proof (count_status_bounds s bs).
  destruct (Status_eqb (status b) s) eqn:E; cbv iota.
  - apply Status_eqb_eq in E. rewrite IH. split; [intros [_ H1]; lia|].
    intros H1; split; [assumption | lia].
  - split; [intros [H1 _]; apply Status_eqb_eq in H1; congruence | lia].
Qed.

Lemma length_filter_status (s : Status) (bin_data : list BinReading) :
  Z.of_nat (length (filter (fun b => Status_eqb (status b) s) bin_data))
  = count_status s bin_data.
Proof.
  induction bin_data as [|b bs IH]; [reflexivity|].
  rewrite count_status_cons. cbn [filter].
  destruct (Status_eqb (status b) s); cbn [length]; rewrite <- IH; lia.
Qed.

Lemma create_efficiency_metrics_nonempty (bin_data : list BinReading) :
  bin_data <> [] ->
  create_efficiency_metrics bin_data =
  let total_bins := Z.of_nat (length bin_data) in
  let critical_bins := count_status Critical bin_data in
  let warning_bins := count_status Warning bin_data in
  let good_bins := total_bins - critical_bins - warning_bins in
  Ok (mkMetrics total_bins critical_bins warning_bins good_bins
        (np_mean (map fill_level bin_data)) (sum_Z (map daily_waste bin_data))
        (((inject_Z good_bins + inject_Z warning_bins * 0.7)
          / inject_Z total_bins) * 100)%Q).
Proof.
  intros Hne. unfold create_efficiency_metrics, py_div.
  destruct bin_data as [|b bs]; [congruence|].
  rewrite length_cons, Nat2Z.inj_succ.
  destruct (Z.eqb_spec (Z.succ (Z.of_nat (length bs))) 0); [lia|].
  reflexivity.
Qed.

Lemma create_efficiency_metrics_empty :
  create_efficiency_metrics [] = Err ZeroDivisionError.
Proof. reflexivity. Qed.

(** The collection-efficiency expression of line 189 over counts
    [g + w + c > 0], as a rational. *)
Lemma efficiency_arith (g w c : Z) :
  0 <= g -> 0 <= w -> 0 <= c -> 0 < g + w + c ->
  let ce := (((inject_Z g + inject_Z w * 0.7) / inject_Z (g + w + c)) * 100)%Q in
  (0 <= ce <= 100)%Q /\
  ((ce == 100)%Q <-> w = 0 /\ c = 0) /\
  ((ce == 0)%Q <-> g = 0 /\ w = 0).
Proof.
  intros Hg Hw Hc Ht ce.
  destruct (g + w + c) as [|p|p] eqn:Et; [lia| |lia].
  subst ce. cbv beta iota delta [Qle Qeq Qdiv Qmult Qplus Qinv inject_Z Qnum Qden].
  rewrite ?Pos2Z.inj_mul.
  repeat split; intros; lia.
Qed.

Lemma np_mean_bounds (xs : list Z) (lo hi : Z) :
  xs <> [] -> Forall (fun x => lo <= x <= hi) xs ->
  exists a, np_mean xs = Some a /\ (inject_Z lo <= a <= inject_Z hi)%Q.
Proof.
  intros Hne H.
  pose proof (sum_Z_bounds (fun x => x) lo hi xs H) as Hs.
  rewrite map_id in Hs.
  destruct xs as [|x r]; [congruence|].
  eexists; split; [reflexivity|].
  destruct (Z.of_nat (length (x :: r))) as [|p|p] eqn:E;
    [rewrite length_cons in E; lia | | rewrite length_cons in E; lia].
  cbv beta iota delta [Qle Qdiv Qmult Qinv inject_Z Qnum Qden].
  rewrite ?Pos2Z.inj_mul. nia.
Qed.

(** ** Claims *)

(** C1. [classify] is total: every integer is sent to Critical above 85,
    else to Warning above 70, else to Good; in particular 86 is Critical,
    85 and 71 are Warning, 70 is Good, and the result is one of the three
    statuses. *)
Theorem classify_total_and_boundaries :
  (forall f : Z,
     (85 < f -> classify f = Critical) /\
     (70 < f <= 85 -> classify f = Warning) /\
     (f <= 70 -> classify f = Good) /\
     In (classify f) [Good; Warning; Critical]) /\
  classify 86 = Critical /\ classify 85 = Warning /\
  classify 71 = Warning /\ classify 70 = Good.
Proof.
  split; [|repeat split; reflexivity].
  intros f. unfold classify.
  destruct (Z.gtb_spec f 85); destruct (Z.gtb_spec f 70);
    repeat split; intros; simpl; try lia; tauto.
Qed.

(** C7. Every generated snapshot has exactly 8 readings, one for each of
    BIN001..BIN008, in registration order, carrying the fixed coordinates
    and area names; the initial session, every [refresh] and every refresh
    prologue of a render pass keep exactly these bins, [refresh] replacing
    the readings by a fresh [generate_bin_data] snapshot. *)
Theorem generated_snapshot_fixed_bins :
  forall w : World,
    length (fst (generate_bin_data w)) = 8%nat /\
    map id (fst (generate_bin_data w)) =
      ["BIN001"; "BIN002"; "BIN003"; "BIN004";
       "BIN005"; "BIN006"; "BIN007"; "BIN008"]%string /\
    NoDup (map id (fst (generate_bin_data w))) /\
    map location_of (fst (generate_bin_data w)) = bin_locations /\
    map location_of (bin_data (fst (init_session w))) = bin_locations /\
    bin_data (fst (refresh w)) = fst (generate_bin_data w) /\
    (forall (auto_refresh button : bool) (s : Session),
       map location_of (bin_data s) = bin_locations ->
       map location_of
         (bin_data (fst (fst (refresh_prologue auto_refresh button s w))))
       = bin_locations).
Proof.
  intros w.
  pose proof (generate_bin_data_locations w) as HL.
  assert (Hid : map id (fst (generate_bin_data w)) = map loc_id bin_locations).
  { rewrite <- HL, map_map. apply map_ext. intros b. reflexivity. }
  assert (Hlen : length (fst (generate_bin_data w)) = 8%nat).
  { rewrite <- (length_map location_of), HL. reflexivity. }
  refine (conj _ (conj _ (conj _ (conj _ (conj _ (conj _ _)))))).
  - exact Hlen.
  - exact Hid.
  - rewrite Hid. simpl.
    repeat constructor; simpl; intuition discriminate.
  - exact HL.
  - rewrite init_session_bin_data. exact HL.
  - apply refresh_bin_data.
  - intros auto_refresh button s Hs.
    destruct (refresh_prologue_cases auto_refresh button s w) as [E | [w' E]];
      rewrite E; [exact Hs|].
    rewrite refresh_bin_data. apply generate_bin_data_locations.
Qed.

(** C8. In every generated snapshot each reading's status is [classify]
    of its fill level. *)
Theorem generated_status_consistent :
  forall w : World,
    Forall (fun b => status b = classify (fill_level b)) (fst (generate_bin_data w)).
Proof. intros w. apply generate_readings_shape. Qed.

(** C10. For a reading whose status is [classify] of its fill level, the
    map marker colour re-derived from the fill level is red exactly when the
    status is Critical, orange exactly when it is Warning and green exactly
    when it is Good. *)
Theorem marker_color_agrees_with_status :
  forall b : BinReading,
    status b = classify (fill_level b) ->
    (marker_color b = red <-> status b = Critical) /\
    (marker_color b = orange <-> status b = Warning) /\
    (marker_color b = green <-> status b = Good).
Proof.
  intros b Hs. rewrite Hs. unfold marker_color, classify.
  destruct (fill_level b >? 85), (fill_level b >? 70);
    repeat split; intros; congruence.
Qed.

(** C2. On every non-empty snapshot the aggregator succeeds and its
    collection efficiency is 100 * (good_bins + 0.7 * warning_bins) /
    total_bins; it lies in [0, 100], is 100 exactly when every bin is Good
    and 0 exactly when every bin is Critical. *)
Theorem collection_efficiency_spec :
  forall bin_data : list BinReading,
    bin_data <> [] ->
    exists m : Metrics,
      create_efficiency_metrics bin_data = Ok m /\
      (collection_efficiency m ==
         100 * (inject_Z (good_bins m) + 0.7 * inject_Z (warning_bins m))
         / inject_Z (total_bins m))%Q /\
      (0 <= collection_efficiency m <= 100)%Q /\
      ((collection_efficiency m == 100)%Q <->
         Forall (fun b => status b = Good) bin_data) /\
      ((collection_efficiency m == 0)%Q <->
         Forall (fun b => status b = Critical) bin_data).
Proof.
  intros bin_data Hne.
  rewrite (create_efficiency_metrics_nonempty bin_data Hne).
  eexists; split; [reflexivity|].
  cbn [collection_efficiency good_bins warning_bins total_bins].
  rewrite !count_status_all.
  pose proof (count_status_sum bin_data) as Hsum.
  pose proof (count_status_bounds Good bin_data).
  pose proof (count_status_bounds Warning bin_data).
  pose proof (count_status_bounds Critical bin_data).
  assert (Hlen : 0 < Z.of_nat (length bin_data))
    by (destruct bin_data; [congruence | rewrite length_cons; lia]).
  set (t := Z.of_nat (length bin_data)) in *.
  set (g := count_status Good bin_data) in *.
  set (w := count_status Warning bin_data) in *.
  set (c := count_status Critical bin_data) in *.
  replace (t - c - w) with g by lia.
  replace t with (g + w + c) by lia.
  destruct (efficiency_arith g w c) as [B [E100 E0]]; try lia.
  split; [|split; [exact B | split]].
  - field. change 0%Q with (inject_Z 0). rewrite inject_Z_injective. lia.
  - rewrite E100. lia.
  - rewrite E0. lia.
Qed.

(** C3. Whenever the aggregator returns metrics for a snapshot,
    good_bins + warning_bins + critical_bins = total_bins = the snapshot's
    length, where critical_bins and warning_bins count the bins whose status
    is Critical, resp. Warning, and good_bins is total_bins minus both (which
    is also the number of Good bins). *)
Theorem metrics_counts_partition :
  forall (bin_data : list BinReading) (m : Metrics),
    create_efficiency_metrics bin_data = Ok m ->
    good_bins m + warning_bins m + critical_bins m = total_bins m /\
    total_bins m = Z.of_nat (length bin_data) /\
    critical_bins m = count_status Critical bin_data /\
    warning_bins m = count_status Warning bin_data /\
    good_bins m = total_bins m - critical_bins m - warning_bins m /\
    good_bins m = count_status Good bin_data.
Proof.
  intros bin_data m Hm.
  assert (Hne : bin_data <> []) by (intros ->; discriminate Hm).
  rewrite (create_efficiency_metrics_nonempty bin_data Hne) in Hm.
  injection Hm as <-. cbn [good_bins warning_bins critical_bins total_bins].
  pose proof (count_status_sum bin_data).
  split; [|split; [|split; [|split; [|split]]]]; lia.
Qed.

(** C4 (as amended). The aggregator has no guard for an empty snapshot:
    there its division by total_bins = 0 raises Python's ZeroDivisionError;
    on every non-empty snapshot it returns metrics. *)
Theorem create_efficiency_metrics_total :
  forall bin_data : list BinReading,
    (bin_data = [] /\ create_efficiency_metrics bin_data = Err ZeroDivisionError) \/
    (bin_data <> [] /\ exists m, create_efficiency_metrics bin_data = Ok m).
Proof.
  intros [|b bs].
  - left. split; [reflexivity | exact create_efficiency_metrics_empty].
  - right. split; [discriminate|].
    rewrite create_efficiency_metrics_nonempty by discriminate.
    eexists; reflexivity.
Qed.

(** C4 refuted as stated: on the empty snapshot the aggregator does not
    fail with a dedicated EmptyFleetError from a guard; the error is the
    ZeroDivisionError of the unguarded division of line 189. *)
Lemma create_efficiency_metrics_empty_unguarded :
  create_efficiency_metrics [] <> Err EmptyFleetError /\
  create_efficiency_metrics [] = Err ZeroDivisionError.
Proof. split; [discriminate | reflexivity]. Qed.

(** C5. The critical alert list is exactly the Critical bins in snapshot
    order, with no cap (its length is the critical count); the warning
    alert list is the Warning bins in snapshot order cut to the first 3 (its
    length is min(warning count, 3)). *)
Theorem alert_lists_spec :
  forall bin_data : list BinReading,
    fst (alert_lists bin_data) = filter (fun b => Status_eqb (status b) Critical) bin_data /\
    (forall b, In b (fst (alert_lists bin_data)) <-> In b bin_data /\ status b = Critical) /\
    Z.of_nat (length (fst (alert_lists bin_data))) = count_status Critical bin_data /\
    snd (alert_lists bin_data) =
      firstn 3 (filter (fun b => Status_eqb (status b) Warning) bin_data) /\
    (forall b, In b (snd (alert_lists bin_data)) -> In b bin_data /\ status b = Warning) /\
    Z.of_nat (length (snd (alert_lists bin_data))) = Z.min (count_status Warning bin_data) 3.
Proof.
  intros bin_data. cbn [alert_lists fst snd].
  refine (conj eq_refl (conj _ (conj _ (conj eq_refl (conj _ _))))).
  - intros b. rewrite filter_In, Status_eqb_eq. reflexivity.
  - apply length_filter_status.
  - intros b Hb.
    assert (Hf : In b (filter (fun b => Status_eqb (status b) Warning) bin_data)).
    { rewrite <- (firstn_skipn 3). apply in_or_app. left. exact Hb. }
    rewrite filter_In, Status_eqb_eq in Hf. exact Hf.
  - rewrite length_firstn, <- length_filter_status. lia.
Qed.

(** C6. Over the route catalogue of lines 203-208 (efficiencies A 85, B 92,
    C 78, D 88), the maximum by efficiency with first occurrence winning is
    Route B and the minimum is Route C: every route's efficiency lies
    between theirs and every route listed before them is strictly below,
    resp. above; they are the routes the recommendations of lines 381-382
    name as highest and lowest. *)
Theorem best_worst_route_catalog :
  best_route_spec routes = Some (mkRoute "Route B" 6 18.3 2.8 92) /\
  worst_route_spec routes = Some (mkRoute "Route C" 10 32.1 4.1 78) /\
  nth_error routes 1 = Some (mkRoute "Route B" 6 18.3 2.8 92) /\
  nth_error routes 2 = Some (mkRoute "Route C" 10 32.1 4.1 78) /\
  Forall (fun r => 78 <= Efficiency r <= 92) routes /\
  Forall (fun r => Efficiency r < 92) (firstn 1 routes) /\
  Forall (fun r => 78 < Efficiency r) (firstn 2 routes) /\
  String.prefix "Route B shows highest efficiency" (nth 0 recommendations ""%string) = true /\
  String.prefix "Route C has lowest efficiency" (nth 1 recommendations ""%string) = true.
Proof.
  split; [reflexivity|]. split; [reflexivity|].
  split; [reflexivity|]. split; [reflexivity|].
  split; [repeat constructor; simpl; lia|].
  split; [repeat constructor; simpl; lia|].
  split; [repeat constructor; simpl; lia|].
  split; reflexivity.
Qed.

(** C9 (code bug). With auto refresh on and the button not pressed, a
    session last refreshed at time 0 whose render pass starts 86409 s later
    (1 day and 10 s after the one-second sleep) is not refreshed: line 241
    compares the [.seconds] field of the timedelta (10) with 30, although
    the elapsed time exceeds 30 s. *)
Theorem auto_refresh_skipped_after_a_day :
  let s0 := fst (init_session (zero_world 0 0)) in
  let w := zero_world 80 (86409 * 1000000) in
  clock (snd (time_sleep 1 w)) - last_update s0 = 86410 * 1000000 /\
  timedelta_seconds (clock (snd (time_sleep 1 w)) - last_update s0) = 10 /\
  fst (refresh_prologue true false s0 w) = (s0, false).
Proof. vm_compute. split; [reflexivity | split; reflexivity]. Qed.

(** The refresh prologue with auto refresh on refreshes exactly when the
    [.seconds] field of the elapsed timedelta exceeds 30 (or the button is
    pressed). *)
Lemma refresh_prologue_auto (button : bool) (s : Session) (w : World) :
  let w1 := snd (time_sleep 1 w) in
  refresh_prologue true button s w =
  if (timedelta_seconds (clock w1 - last_update s) >? 30) || button
  then (let (s', w2) := refresh w1 in (s', true, w2))
  else (s, false, w1).
Proof.
  unfold refresh_prologue, bind, ret, time_sleep, datetime_now.
  cbv beta iota zeta. cbn [snd clock].
  destruct (timedelta_seconds (clock w + 1 * 1000000 - last_update s) >? 30),
    button; cbn [orb]; reflexivity.
Qed.

(** ** Witnesses *)

Lemma collection_efficiency_spec_witness :
  scenario_snapshot <> [] /\
  exists m, create_efficiency_metrics scenario_snapshot = Ok m.
Proof.
  split; [discriminate|].
  destruct (collection_efficiency_spec scenario_snapshot ltac:(discriminate))
    as [m [Hm _]].
  exists m. exact Hm.
Defined.

Lemma metrics_counts_partition_witness :
  exists m, create_efficiency_metrics scenario_snapshot = Ok m /\
            good_bins m + warning_bins m + critical_bins m = total_bins m.
Proof.
  destruct (create_efficiency_metrics scenario_snapshot) as [m|e] eqn:E;
    [|vm_compute in E; discriminate].
  exists m. split; [reflexivity|].
  apply (metrics_counts_partition scenario_snapshot m E).
Defined.

Lemma marker_color_agrees_with_status_witness :
  status (reading_at (mkLocation "BIN001" 28.6139 77.2090 "Connaught Place") 90)
    = classify 90 /\
  marker_color (reading_at (mkLocation "BIN001" 28.6139 77.2090 "Connaught Place") 90)
    = red.
Proof.
  split; [reflexivity|].
  apply (marker_color_agrees_with_status
           (reading_at (mkLocation "BIN001" 28.6139 77.2090 "Connaught Place") 90)).
  - reflexivity.
  - reflexivity.
Defined.

(** The spec's scenario: 3 Critical, 2 Warning, 3 Good bins give a
    collection efficiency of 55. *)
Example scenario_metrics :
  exists m, create_efficiency_metrics scenario_snapshot = Ok m /\
    critical_bins m = 3 /\ warning_bins m = 2 /\ good_bins m = 3 /\
    (collection_efficiency m == 55)%Q.
Proof.
  eexists. split; [reflexivity|]. vm_compute. repeat split; reflexivity.
Qed.

(** ** Further properties of the code *)


(** When every bin's waste classification has the five waste types as keys
    in order, the totals dictionary of the waste chart holds, per type, the
    sum of that type's amounts over the bins. *)
Theorem waste_totals_sums :
  forall bin_data : list BinReading,
    Forall (fun b => map fst (waste_classification b) = waste_type_names) bin_data ->
    waste_totals bin_data =
    inl [("Plastic", sum_Z (map (amount_at 0) bin_data));
         ("Paper", sum_Z (map (amount_at 1) bin_data));
         ("Glass", sum_Z (map (amount_at 2) bin_data));
         ("Metal", sum_Z (map (amount_at 3) bin_data));
         ("Organic", sum_Z (map (amount_at 4) bin_data))]%string.
Proof.
  intros bin_data H. unfold waste_totals, total_waste_init.
  rewrite (waste_fold_sums bin_data 0 0 0 0 0 H). reflexivity.
Qed.

(** On a generated snapshot the waste chart never raises: its totals are
    Plastic 160-320, Paper 120-240, Glass 40-160, Metal 40-120 and
    Organic 200-360 (eight bins each within its type's range). *)
Theorem generated_waste_totals_bounds :
  forall w : World,
    exists totals,
      waste_totals (fst (generate_bin_data w)) = inl totals /\
      map fst totals = waste_type_names /\
      Forall2 (fun kv range => fst range <= snd kv <= snd range) totals
        [(160, 320); (120, 240); (40, 160); (40, 120); (200, 360)].
Proof.
  intros w.
  assert (Hr : Forall (reading_in_ranges (clock w)) (fst (generate_bin_data w)))
    by exact (proj1 (generate_readings_ranges bin_locations w)).
  pose proof (generate_bin_data_length w) as Hlen.
  set (S := fst (generate_bin_data w)) in *.
  assert (Hk : Forall (fun b => map fst (waste_classification b) = waste_type_names) S).
  { eapply Forall_impl; [|exact Hr]. intros b Hb. apply (reading_amounts _ _ Hb). }
  assert (HB : forall i lo hi,
             (forall b, reading_in_ranges (clock w) b -> lo <= amount_at i b <= hi) ->
             8 * lo <= sum_Z (map (amount_at i) S) <= 8 * hi).
  { intros i lo hi Hi. replace 8 with (Z.of_nat (length S)) by (rewrite Hlen; reflexivity).
    apply sum_Z_bounds. eapply Forall_impl; [|exact Hr]. exact Hi. }
  pose proof (HB 0%nat 20 40 ltac:(intros b Hb; apply reading_amounts in Hb; lia)).
  pose proof (HB 1%nat 15 30 ltac:(intros b Hb; apply reading_amounts in Hb; lia)).
  pose proof (HB 2%nat 5 20 ltac:(intros b Hb; apply reading_amounts in Hb; lia)).
  pose proof (HB 3%nat 5 15 ltac:(intros b Hb; apply reading_amounts in Hb; lia)).
  pose proof (HB 4%nat 25 45 ltac:(intros b Hb; apply reading_amounts in Hb; lia)).
  rewrite (waste_totals_sums S Hk).
  eexists. split; [reflexivity|]. split; [reflexivity|].
  repeat apply Forall2_cons; try apply Forall2_nil; cbn [fst snd]; lia.
Qed.

(** If any bin's waste classification has a key other than the five waste
    types, the waste chart's loop raises a [KeyError]. *)
Theorem waste_totals_unknown_key :
  forall (bin_data : list BinReading) (b : BinReading) (k : string),
    In b bin_data -> In k (map fst (waste_classification b)) ->
    ~ In k waste_type_names ->
    exists e, waste_totals bin_data = inr e.
Proof.
  intros bin_data b k Hb Hk Hn. unfold waste_totals.
  apply (waste_fold_unknown bin_data total_waste_init b k); auto.
Qed.

(** Whenever every fill level of a non-empty snapshot lies in [lo, hi],
    the aggregator's average fill level ([np.mean]) lies in [lo, hi]. *)
Theorem avg_fill_level_bounds :
  forall (bin_data : list BinReading) (lo hi : Z),
    bin_data <> [] ->
    Forall (fun b => lo <= fill_level b <= hi) bin_data ->
    exists m a,
      create_efficiency_metrics bin_data = Ok m /\
      avg_fill_level m = Some a /\ (inject_Z lo <= a <= inject_Z hi)%Q.
Proof.
  intros bin_data lo hi Hne H.
  destruct (np_mean_bounds (map fill_level bin_data) lo hi) as [a [Ha Hb]].
  - destruct bin_data; [congruence | discriminate].
  - apply Forall_map. exact H.
  - exists (mkMetrics (Z.of_nat (length bin_data)) (count_status Critical bin_data)
             (count_status Warning bin_data)
             (Z.of_nat (length bin_data) - count_status Critical bin_data
              - count_status Warning bin_data)
             (np_mean (map fill_level bin_data)) (sum_Z (map daily_waste bin_data))
             (((inject_Z (Z.of_nat (length bin_data) - count_status Critical bin_data
                          - count_status Warning bin_data)
                + inject_Z (count_status Warning bin_data) * 0.7)
               / inject_Z (Z.of_nat (length bin_data))) * 100)%Q), a.
    split; [exact (create_efficiency_metrics_nonempty bin_data Hne)|].
    split; [exact Ha | exact Hb].
Qed.

(** The aggregator never raises on a generated snapshot: it reports 8
    bins, an average fill level between 10 and 95 and a total daily waste
    between 400 and 1600 kg. *)
Theorem generated_metrics_ranges :
  forall w : World,
    exists m,
      create_efficiency_metrics (fst (generate_bin_data w)) = Ok m /\
      total_bins m = 8 /\
      (exists a, avg_fill_level m = Some a /\ (10 <= a <= 95)%Q) /\
      400 <= total_daily_waste m <= 1600.
Proof.
  intros w.
  assert (Hr : Forall (reading_in_ranges (clock w)) (fst (generate_bin_data w)))
    by exact (proj1 (generate_readings_ranges bin_locations w)).
  pose proof (generate_bin_data_length w) as Hlen.
  set (S := fst (generate_bin_data w)) in *. clearbody S.
  assert (Hne : S <> []) by (intros E; rewrite E in Hlen; discriminate).
  destruct (np_mean_bounds (map fill_level S) 10 95) as [a [Ha Hb]].
  - destruct S; [congruence | discriminate].
  - apply Forall_map. eapply Forall_impl; [|exact Hr].
    intros b Hb'. apply Hb'.
  - pose proof (sum_Z_bounds daily_waste 50 200 S) as Hw.
    rewrite Hlen in Hw.
    rewrite (create_efficiency_metrics_nonempty S Hne).
    eexists. split; [reflexivity|]. cbn [total_bins avg_fill_level total_daily_waste].
    split; [rewrite Hlen; reflexivity|].
    split; [exists a; split; [exact Ha | exact Hb]|].
    apply Hw. eapply Forall_impl; [|exact Hr]. intros b Hb'. apply Hb'.
Qed.

(** On a generated snapshot the city map has one marker per bin, at the
    coordinates of [bin_locations] in order, each of radius 10 + fill/10
    between 11 and 19.5. *)
Theorem generated_map_markers :
  forall w : World,
    map (fun mk => (marker_lat mk, marker_lon mk)) (create_city_map (fst (generate_bin_data w)))
      = map (fun l => (loc_lat l, loc_lon l)) bin_locations /\
    Forall (fun mk => (11 <= radius mk <= 19.5)%Q)
      (create_city_map (fst (generate_bin_data w))).
Proof.
  intros w.
  assert (Hr : Forall (reading_in_ranges (clock w)) (fst (generate_bin_data w)))
    by exact (proj1 (generate_readings_ranges bin_locations w)).
  split.
  - rewrite <- (generate_bin_data_locations w). unfold create_city_map.
    rewrite !map_map. apply map_ext. intros b. reflexivity.
  - unfold create_city_map. apply Forall_map.
    eapply Forall_impl; [|exact Hr]. intros b [Hf _]. cbn [radius].
    cbv beta iota delta [Qle Qdiv Qmult Qplus Qinv inject_Z Qnum Qden].
    rewrite ?Pos2Z.inj_mul. lia.
Qed.

(** On a generated snapshot the critical alerts are exactly the bins with
    fill level above 85 and the warning alerts the first three bins with
    fill level in 71..85, in snapshot order. *)
Theorem generated_alerts_by_fill_level :
  forall w : World,
    fst (alert_lists (fst (generate_bin_data w))) =
      filter (fun b => fill_level b >? 85) (fst (generate_bin_data w)) /\
    snd (alert_lists (fst (generate_bin_data w))) =
      firstn 3 (filter (fun b => (fill_level b >? 70) && (fill_level b <=? 85))
                  (fst (generate_bin_data w))).
Proof.
  intros w.
  assert (Hs : Forall (fun b => status b = classify (fill_level b)) (fst (generate_bin_data w)))
    by exact (proj2 (generate_readings_shape bin_locations w)).
  rewrite Forall_forall in Hs.
  unfold alert_lists. cbn [fst snd]. split; [|f_equal];
    apply filter_ext_in; intros b Hb; rewrite (Hs b Hb); unfold classify;
    destruct (Z.gtb_spec (fill_level b) 85), (Z.gtb_spec (fill_level b) 70),
      (Z.leb_spec (fill_level b) 85); try lia; reflexivity.
Qed.

(** With auto refresh on and the button not pressed, the render pass
    refreshes (and reruns) exactly when the time elapsed since the last
    refresh, measured after the one-second sleep, is at least 31 s modulo
    one day: line 241 reads the [.seconds] field of the timedelta. *)
Theorem auto_refresh_condition :
  forall (s : Session) (w : World),
    snd (fst (refresh_prologue true false s w)) = true <->
    (clock w + 1000000 - last_update s) mod 86400000000 >= 31000000.
Proof.
  intros s w. rewrite refresh_prologue_auto. cbv zeta.
  change (clock (snd (time_sleep 1 w))) with (clock w + 1 * 1000000).
  rewrite orb_false_r. unfold timedelta_seconds.
  replace (clock w + 1 * 1000000 - last_update s)
    with (clock w + 1000000 - last_update s) by lia.
  set (x := (clock w + 1000000 - last_update s) mod 86400000000).
  assert (Hx : 0 <= x) by (apply Z.mod_pos_bound; lia).
  destruct (Z.gtb_spec (x / 1000000) 30) as [H|H].
  - destruct (refresh (snd (time_sleep 1 w))). cbn [fst snd].
    split; [intros _ | reflexivity]. Z.div_mod_to_equations. lia.
  - cbn [fst snd]. split; [discriminate|]. intros Hc. exfalso.
    Z.div_mod_to_equations. lia.
Qed.

(** A render pass's refresh prologue leaves the session untouched unless it
    reruns; when it reruns, the session is a [refresh] taken at a time no
    earlier than the start of the pass; pressing the button always
    reruns. *)
Theorem refresh_prologue_outcome :
  forall (auto_refresh button : bool) (s : Session) (w : World),
    (snd (fst (refresh_prologue auto_refresh button s w)) = false ->
       fst (fst (refresh_prologue auto_refresh button s w)) = s) /\
    (snd (fst (refresh_prologue auto_refresh button s w)) = true ->
       exists w', clock w <= clock w' /\
         fst (fst (refresh_prologue auto_refresh button s w)) = fst (refresh w')) /\
    (button = true -> snd (fst (refresh_prologue auto_refresh button s w)) = true).
Proof.
  intros auto_refresh button s w. unfold refresh_prologue.
  destruct auto_refresh, button; unfold bind, ret, time_sleep, datetime_now;
    cbv beta iota zeta;
    try (match goal with |- context [if ?c then _ else _] => destruct c end);
    cbv beta iota zeta;
    first
      [ match goal with |- context [refresh ?w0] =>
          let E := fresh "E" in
          destruct (refresh w0) as [s' w2] eqn:E; cbv beta iota; cbn [fst snd];
          split; [intros H; discriminate H|];
          split; [|intros _; reflexivity];
          intros _; exists w0; rewrite E; split; [cbn [clock]; lia | reflexivity] end
      | cbn [fst snd];
        split; [intros _; reflexivity|];
        split; intros H; discriminate H ].
Qed.


Lemma repeatM_forall {A} (P : A -> Prop) (m : M A) :
  (forall w, P (fst (m w))) ->
  forall k w, length (fst (repeatM k m w)) = k /\ Forall P (fst (repeatM k m w)).
Proof.
  intros Hm k. induction k as [|k IH]; intros w.
  - split; [reflexivity | constructor].
  - cbn [repeatM]. unfold bind, ret.
    pose proof (Hm w) as Hx. destruct (m w) as [x w1]. cbn [fst] in Hx.
    destruct (IH w1) as [Hl HP]. destruct (repeatM k m w1) as [xs w2].
    cbn [fst length] in *. split; [lia | constructor; assumption].
Qed.

Lemma map_fst_combine_le {A B} (l : list A) (l' : list B) :
  (length l <= length l')%nat -> map fst (combine l l') = l.
Proof.
  revert l'. induction l as [|a l IH]; intros [|b l'] H; cbn in *;
    [reflexivity | reflexivity | lia | f_equal; apply IH; lia].
Qed.

Lemma length_combine_eq {A B} (l : list A) (l' : list B) :
  length l = length l' -> length (combine l l') = length l.
Proof. intros H. rewrite length_combine. lia. Qed.

Lemma bin_id_draw_in_locations (w : World) :
  In (fst ((n <- randint 1 8 ;; ret ("BIN" ++ format_03d n)%string) w))
     (map loc_id bin_locations).
Proof.
  unfold bind, ret, randint. cbn [fst rng rpos].
  pose proof (Z.mod_pos_bound (rng w (rpos w)) (8 - 1 + 1) ltac:(lia)) as H.
  destruct (rng w (rpos w) mod (8 - 1 + 1)) as [|p|p] eqn:E; [| |lia].
  - vm_compute. tauto.
  - assert (Hp : p = 1%positive \/ p = 2%positive \/ p = 3%positive \/ p = 4%positive
                 \/ p = 5%positive \/ p = 6%positive \/ p = 7%positive) by lia.
    repeat destruct Hp as [-> | Hp]; subst; vm_compute; tauto.
Qed.

Lemma random_choice_in (population : list string) (w : World) :
  population <> [] -> In (fst (random_choice population w)) population.
Proof.
  intros Hne. unfold random_choice. cbn [fst]. apply nth_In.
  assert (Hl : (0 < length population)%nat)
    by (destruct population; [congruence | cbn; lia]).
  pose proof (Z.mod_pos_bound (rng w (rpos w)) (Z.of_nat (length population))
                ltac:(lia)) as H.
  apply Nat2Z.inj_lt. rewrite Z2Nat.id; lia.
Qed.

Lemma randint_range (a b : Z) (w : World) : a <= b -> a <= fst (randint a b w) <= b.
Proof. intros H. unfold randint. cbn [fst]. apply randint_bound. exact H. Qed.


Lemma recent_classifications_shape (w : World) :
  exists ids items confs,
    fst (recent_classifications w) =
      map classification_row
        (combine (map (fun i => clock w - timedelta_hours 2 + Z.of_nat i * 12 * 60 * 1000000)
                    (seq 0 10))
                 (combine ids (combine items confs))) /\
    length ids = 10%nat /\ Forall (fun x => In x (map loc_id bin_locations)) ids /\
    length items = 10%nat /\
    Forall (fun x => In x ["Plastic Bottle"; "Paper Cup"; "Glass Jar"; "Metal Can";
                           "Food Waste"]%string) items /\
    length confs = 10%nat /\ Forall (fun c => 85 <= c <= 99) confs.
Proof.
  unfold recent_classifications, bind, datetime_now, ret. cbv beta iota zeta.
  destruct (repeatM_forall (fun x => In x (map loc_id bin_locations)) _
              bin_id_draw_in_locations 10 w) as [Hl1 HP1].
  destruct (repeatM 10 _ w) as [ids w1]. cbn [fst] in Hl1, HP1.
  set (pop := ["Plastic Bottle"; "Paper Cup"; "Glass Jar"; "Metal Can"; "Food Waste"]%string).
  destruct (repeatM_forall (fun x => In x pop) (random_choice pop)
              (fun w' => random_choice_in pop w' ltac:(discriminate)) 10 w1) as [Hl2 HP2].
  destruct (repeatM 10 (random_choice pop) w1) as [items w2]. cbn [fst] in Hl2, HP2.
  destruct (repeatM_forall (fun c => 85 <= c <= 99) (randint 85 99)
              (fun w' => randint_range 85 99 w' ltac:(lia)) 10 w2) as [Hl3 HP3].
  destruct (repeatM 10 (randint 85 99) w2) as [confs w3]. cbn [fst] in Hl3, HP3.
  exists ids, items, confs.
  split; [reflexivity|]. auto 7.
Qed.
(** The recent classifications table has ten rows, stamped every 12 minutes
    from two hours before the current time; each row names one of the eight
    bins of the map, one of the five listed items, and a confidence between
    85 and 99. *)
Theorem recent_classifications_rows :
  forall w : World,
    let rows := fst (recent_classifications w) in
    length rows = 10%nat /\
    map row_timestamp rows =
      map (fun i => clock w - timedelta_hours 2 + Z.of_nat i * 720000000) (seq 0 10) /\
    Forall (fun r =>
      In (row_bin_id r) (map loc_id bin_locations) /\
      In (row_item r)
        ["Plastic Bottle"; "Paper Cup"; "Glass Jar"; "Metal Can"; "Food Waste"]%string /\
      85 <= row_confidence r <= 99) rows.
Proof.
  intros w. cbv zeta.
  destruct (recent_classifications_shape w)
    as (ids & items & confs & -> & Hl1 & HP1 & Hl2 & HP2 & Hl3 & HP3).
  assert (Hc1 : length (combine items confs) = 10%nat)
    by (rewrite length_combine_eq; lia).
  assert (Hc2 : length (combine ids (combine items confs)) = 10%nat)
    by (rewrite length_combine_eq; lia).
  split; [|split].
  - rewrite length_map, length_combine_eq; [reflexivity|].
    rewrite length_map, length_seq. lia.
  - rewrite map_map.
    transitivity (map fst (combine
      (map (fun i => clock w - timedelta_hours 2 + Z.of_nat i * 12 * 60 * 1000000) (seq 0 10))
      (combine ids (combine items confs)))).
    + apply map_ext. intros [t [b [i c]]]. reflexivity.
    + rewrite map_fst_combine_le by (rewrite length_map, length_seq; lia).
      apply map_ext. intros i. lia.
  - apply Forall_forall. intros r Hr. apply in_map_iff in Hr.
    destruct Hr as [[t [b [i c]]] [<- Hin]]. cbn [classification_row row_bin_id row_item row_confidence].
    apply in_combine_r in Hin.
    pose proof (in_combine_l _ _ _ _ Hin) as Hb.
    apply in_combine_r in Hin.
    pose proof (in_combine_l _ _ _ _ Hin) as Hi.
    apply in_combine_r in Hin.
    rewrite Forall_forall in HP1, HP2, HP3.
    split; [apply HP1; exact Hb | split; [apply HP2; exact Hi | apply HP3; exact Hin]].
Qed.

Lemma waste_totals_sums_witness :
  Forall (fun b => map fst (waste_classification b) = waste_type_names)
    (fst (generate_bin_data (zero_world 0 0))) /\
  waste_totals (fst (generate_bin_data (zero_world 0 0))) =
    inl [("Plastic", sum_Z (map (amount_at 0) (fst (generate_bin_data (zero_world 0 0)))));
         ("Paper", sum_Z (map (amount_at 1) (fst (generate_bin_data (zero_world 0 0)))));
         ("Glass", sum_Z (map (amount_at 2) (fst (generate_bin_data (zero_world 0 0)))));
         ("Metal", sum_Z (map (amount_at 3) (fst (generate_bin_data (zero_world 0 0)))));
         ("Organic", sum_Z (map (amount_at 4) (fst (generate_bin_data (zero_world 0 0)))))]%string.
Proof.
  assert (H : Forall (fun b => map fst (waste_classification b) = waste_type_names)
                (fst (generate_bin_data (zero_world 0 0))))
    by (vm_compute; repeat constructor).
  exact (conj H (waste_totals_sums _ H)).
Defined.

Lemma waste_totals_unknown_key_witness :
  In (mkBinReading "BIN001" 0 0 "Connaught Place" 50 (classify 50) 0 100
        [("Wood", 5)] 25 50)%string
     [mkBinReading "BIN001" 0 0 "Connaught Place" 50 (classify 50) 0 100
        [("Wood", 5)] 25 50]%string /\
  In "Wood"%string (map fst [("Wood", 5)]%string) /\
  ~ In "Wood"%string waste_type_names /\
  exists e, waste_totals
    [mkBinReading "BIN001" 0 0 "Connaught Place" 50 (classify 50) 0 100
       [("Wood", 5)] 25 50]%string = inr e.
Proof.
  assert (H1 : In (mkBinReading "BIN001" 0 0 "Connaught Place" 50 (classify 50) 0 100
                     [("Wood", 5)] 25 50)%string
                  [mkBinReading "BIN001" 0 0 "Connaught Place" 50 (classify 50) 0 100
                     [("Wood", 5)] 25 50]%string) by (left; reflexivity).
  assert (H2 : In "Wood"%string (map fst [("Wood", 5)]%string)) by (left; reflexivity).
  assert (H3 : ~ In "Wood"%string waste_type_names)
    by (unfold waste_type_names; cbn; intuition discriminate).
  exact (conj H1 (conj H2 (conj H3 (waste_totals_unknown_key _ _ _ H1 H2 H3)))).
Defined.

Lemma avg_fill_level_bounds_witness :
  scenario_snapshot <> [] /\
  Forall (fun b => 10 <= fill_level b <= 95) scenario_snapshot /\
  exists m a,
    create_efficiency_metrics scenario_snapshot = Ok m /\
    avg_fill_level m = Some a /\ (inject_Z 10 <= a <= inject_Z 95)%Q.
Proof.
  assert (H1 : scenario_snapshot <> []) by (unfold scenario_snapshot; cbn; discriminate).
  assert (H2 : Forall (fun b => 10 <= fill_level b <= 95) scenario_snapshot)
    by (apply Forall_forall; intros b Hb; unfold scenario_snapshot in Hb; cbn in Hb;
        repeat destruct Hb as [<- | Hb]; cbn; [lia .. | contradiction]).
  exact (conj H1 (conj H2 (avg_fill_level_bounds _ 10 95 H1 H2))).
Defined.
